(** * Interactive pricing component: a shallow embedding of [script.js]

    The script keeps one module-level flag ([isYearlyBilling]) and reads and
    writes four DOM elements.  The embedding threads that state explicitly
    through the script's functions, which keep their source names. *)

From Stdlib Require Import ZArith QArith String Ascii List.
From Stdlib Require Import DecimalString DecimalZ.
From stdpp Require Import base gmap strings list.

Local Open Scope string_scope.
Local Open Scope Z_scope.

(** ** JavaScript values used by the script *)

Module Js.

(** A call either completes normally or throws. *)
Inductive Exception := TypeError.

Inductive Completion (A : Type) :=
| Normal (a : A)
| Throw (e : Exception).
Arguments Normal {A} a.
Arguments Throw {A} e.

(** Sequencing: a throw abandons the rest of the function body. *)
Global Instance Completion_bind : MBind Completion := λ A B k c,
  match c with
  | Normal a => k a
  | Throw e => Throw e
  end.

(** Numbers.  Every number the script computes is an integer or a multiple
    of 1/4 far below 2^53; IEEE double arithmetic is exact on those, so the
    finite numbers are modelled as rationals, kept in lowest terms. *)
Inductive Number :=
| NaN
| Fin (q : Q).

Definition sub (a b : Q) : Q := Qred (a - b).

(** [x * y] where [x] may be [undefined] ([None]): ToNumber(undefined) is NaN. *)
Definition mul (x : option Number) (y : Q) : Number :=
  match x with
  | Some (Fin a) => Fin (Qred (a * y))
  | Some NaN | None => NaN
  end.

(** Number::toString on an integer (of magnitude below 10^21): its decimal
    numeral, with a leading [-] when negative. *)
Definition ToString (n : Z) : string := NilZero.string_of_int (Z.to_int n).

Definition digit (d : Z) : ascii := ascii_of_nat (48 + Z.to_nat d).

(** Digits after the decimal point of [r / d], for [0 <= r < d]. *)
Fixpoint fraction (fuel : nat) (r d : Z) : string :=
  match fuel with
  | O => EmptyString
  | S fuel' =>
      if r =? 0 then EmptyString
      else String (digit (10 * r / d)) (fraction fuel' ((10 * r) mod d) d)
  end.

(** Number::toString on a finite number with a short exact decimal
    expansion: an integer prints as its numeral, a fraction as integer
    part, point and digits. *)
Definition Number_toString (q : Q) : string :=
  let q' := Qred q in
  let n := Qnum q' in
  let d := Z.pos (Qden q') in
  if d =? 1 then ToString n
  else (if n <? 0 then "-" else EmptyString)
       ++ ToString (Z.abs n / d) ++ "."
       ++ fraction (Pos.size_nat (Qden q')) (Z.abs n mod d) d.

(** A value substituted into a template literal. *)
Definition template (v : option Number) : string :=
  match v with
  | None => "undefined"
  | Some NaN => "NaN"
  | Some (Fin q) => Number_toString q
  end.

(** Assigning to [textContent], a nullable DOMString attribute: [undefined]
    is converted to null, which empties the element. *)
Definition textContent_of (v : option string) : string :=
  match v with
  | Some s => s
  | None => EmptyString
  end.

(** The property names every ordinary object inherits from
    [Object.prototype]. *)
Definition Object_prototype_names : list string :=
  [ "constructor"; "__proto__"; "hasOwnProperty"; "isPrototypeOf";
    "propertyIsEnumerable"; "toLocaleString"; "toString"; "valueOf";
    "__defineGetter__"; "__defineSetter__"; "__lookupGetter__";
    "__lookupSetter__" ].

End Js.

Import Js.

(** ** Configuration and constants *)

Record PricingInfo := { views : string; price : Q }.

(** The object literal, property by property in source order.  A numeric
    literal used as a property name is stored under its string form. *)
Definition PRICING_DATA_literal : list (Z * PricingInfo) :=
  [ (1, {| views := "10K";  price := 8 |});
    (2, {| views := "50K";  price := 12 |});
    (3, {| views := "100K"; price := 16 |});
    (4, {| views := "500K"; price := 24 |});
    (5, {| views := "1M";   price := 36 |}) ].

(** The own properties of [PRICING_DATA]; a later property of the same name
    would replace an earlier one. *)
Definition PRICING_DATA : gmap string PricingInfo :=
  foldl (λ m kv, <[ToString kv.1 := kv.2]> m) ∅ PRICING_DATA_literal.

Definition YEARLY_DISCOUNT : Q := 0.25.
Definition DEFAULT_RANGE_VALUE : Z := 3.

(** What [PRICING_DATA[key]] evaluates to: one of the five entries, a member
    inherited from [Object.prototype] (a function or the prototype object,
    which carry neither [views] nor [price]), or [undefined]. *)
Inductive Entry :=
| Undefined
| Own (info : PricingInfo)
| Inherited.

Definition PRICING_DATA_get (key : string) : Entry :=
  match PRICING_DATA !! key with
  | Some info => Own info
  | None => if bool_decide (key ∈ Object_prototype_names) then Inherited else Undefined
  end.

(** [if (pricingInfo)]: only [undefined] is falsy here. *)
Definition truthy (e : Entry) : bool :=
  match e with
  | Undefined => false
  | Own _ | Inherited => true
  end.

(** [pricingInfo.views] and [pricingInfo.price]: reading a property of
    [undefined] throws; a property that is absent reads as [undefined]. *)
Definition get_views (e : Entry) : Completion (option string) :=
  match e with
  | Undefined => Throw TypeError
  | Own info => Normal (Some (views info))
  | Inherited => Normal None
  end.

Definition get_price (e : Entry) : Completion (option Number) :=
  match e with
  | Undefined => Throw TypeError
  | Own info => Normal (Some (Fin (price info)))
  | Inherited => Normal None
  end.

(** ** DOM elements and state *)

Record State := {
  rangeInput_value : string;
  viewCount_textContent : string;
  monthPrice_textContent : string;
  discountBtn_classList : gset string;
  isYearlyBilling : bool
}.

Definition set_rangeInput_value (st : State) (v : string) : State :=
  {| rangeInput_value := v;
     viewCount_textContent := viewCount_textContent st;
     monthPrice_textContent := monthPrice_textContent st;
     discountBtn_classList := discountBtn_classList st;
     isYearlyBilling := isYearlyBilling st |}.

Definition set_viewCount_textContent (st : State) (v : string) : State :=
  {| rangeInput_value := rangeInput_value st;
     viewCount_textContent := v;
     monthPrice_textContent := monthPrice_textContent st;
     discountBtn_classList := discountBtn_classList st;
     isYearlyBilling := isYearlyBilling st |}.

Definition set_monthPrice_textContent (st : State) (v : string) : State :=
  {| rangeInput_value := rangeInput_value st;
     viewCount_textContent := viewCount_textContent st;
     monthPrice_textContent := v;
     discountBtn_classList := discountBtn_classList st;
     isYearlyBilling := isYearlyBilling st |}.

Definition set_discountBtn_classList (st : State) (c : gset string) : State :=
  {| rangeInput_value := rangeInput_value st;
     viewCount_textContent := viewCount_textContent st;
     monthPrice_textContent := monthPrice_textContent st;
     discountBtn_classList := c;
     isYearlyBilling := isYearlyBilling st |}.

Definition set_isYearlyBilling (st : State) (b : bool) : State :=
  {| rangeInput_value := rangeInput_value st;
     viewCount_textContent := viewCount_textContent st;
     monthPrice_textContent := monthPrice_textContent st;
     discountBtn_classList := discountBtn_classList st;
     isYearlyBilling := b |}.

(** [classList.add] and [classList.remove]. *)
Definition classList_add (c : gset string) (token : string) : gset string := {[token]} ∪ c.
Definition classList_remove (c : gset string) (token : string) : gset string := c ∖ {[token]}.

(** ** Core business logic *)

Definition updatePricing (st : State) : Completion State :=
  let rangeValue := rangeInput_value st in
  let pricingInfo := PRICING_DATA_get rangeValue in
  if truthy pricingInfo then
    v ← get_views pricingInfo;
    let st := set_viewCount_textContent st (textContent_of v) in
    finalPrice ← get_price pricingInfo;
    finalPrice ← (if isYearlyBilling st
                  then p ← get_price pricingInfo;
                       Normal (Some (mul p (sub 1 YEARLY_DISCOUNT)))
                  else Normal finalPrice);
    Normal (set_monthPrice_textContent st ("$" ++ template finalPrice))
  else Normal st.

(** ** Event handlers *)

Definition handleRangeChange (st : State) : Completion State :=
  updatePricing st.

Definition handleDiscountToggle (st : State) : Completion State :=
  let st := set_isYearlyBilling st (negb (isYearlyBilling st)) in
  let st :=
    if isYearlyBilling st
    then set_discountBtn_classList st (classList_add (discountBtn_classList st) "active")
    else set_discountBtn_classList st (classList_remove (discountBtn_classList st) "active") in
  updatePricing st.

(** ** Initialization and startup *)

(** What the markup provides before the script runs: the slider's value, the
    two text surfaces and the classes of the toggle button. *)
Record Markup := {
  markup_range_value : string;
  markup_view_count : string;
  markup_month_price : string;
  markup_discount_classes : gset string
}.

(** Evaluating the script's top level: the elements are looked up and
    [isYearlyBilling] starts as [false]. *)
Definition script_loaded (m : Markup) : State :=
  {| rangeInput_value := markup_range_value m;
     viewCount_textContent := markup_view_count m;
     monthPrice_textContent := markup_month_price m;
     discountBtn_classList := markup_discount_classes m;
     isYearlyBilling := false |}.

(** The listeners that [initializeComponent] registers are [dispatch] below. *)
Definition initializeComponent (st : State) : Completion State :=
  let st := set_rangeInput_value st (ToString DEFAULT_RANGE_VALUE) in
  updatePricing st.

Definition startup (m : Markup) : Completion State :=
  initializeComponent (script_loaded m).

(** ** Events *)

(** An [input] event arrives after the slider has stored its new value; a
    [click] event carries nothing.  The slider's bounds are set in the markup,
    not in the script, so the value may be any string here. *)
Inductive Event :=
| InputEvent (value : string)
| ClickEvent.

Definition dispatch (st : State) (ev : Event) : Completion State :=
  match ev with
  | InputEvent v => handleRangeChange (set_rangeInput_value st v)
  | ClickEvent => handleDiscountToggle st
  end.

Fixpoint run (st : State) (evs : list Event) : Completion State :=
  match evs with
  | [] => Normal st
  | ev :: evs' => st' ← dispatch st ev; run st' evs'
  end.

(** The two operations of the controller: moving the slider to tier [n]
    stores the numeral of [n] as the slider's value. *)
Definition setTier (n : Z) : Event := InputEvent (ToString n).
Definition toggleBilling : Event := ClickEvent.

(** The toggle's visual marker. *)
Definition marker_active (st : State) : Prop := "active" ∈ discountBtn_classList st.

(** A slider's value is always a valid floating-point number, so it is made
    of these characters only. *)
Definition number_char (c : ascii) : bool :=
  bool_decide (c ∈ list_ascii_of_string "0123456789+-.eE").

Fixpoint number_chars (s : string) : bool :=
  match s with
  | EmptyString => true
  | String c s' => number_char c && number_chars s'
  end.

(** The integer a decimal numeral denotes. *)
Definition numeral_value (s : string) : option Z :=
  Z.of_int <$> NilZero.int_of_string s.

(** ** Derived notions *)

(** The price text rendered for an entry under a billing mode. *)
Definition price_text (info : PricingInfo) (yearly : bool) : string :=
  "$" ++ Number_toString
           (if yearly then Qred (price info * sub 1 YEARLY_DISCOUNT) else price info).

(** The display surfaces show the current state: rendering again changes
    nothing. *)
Definition displays_current (st : State) : Prop := updatePricing st = Normal st.

(** The marker agrees with the billing flag. *)
Definition marker_agrees (st : State) : Prop :=
  marker_active st ↔ isYearlyBilling st = true.

(** ** Concrete pages *)

(** A page showing tier 3 at the monthly price, used as a concrete input. *)
Definition page_tier3 : State :=
  {| rangeInput_value := "3";
     viewCount_textContent := "100K";
     monthPrice_textContent := "$16";
     discountBtn_classList := ∅;
     isYearlyBilling := false |}.

(** A page whose markup shows nothing yet and whose button is unmarked. *)
Definition blank_markup : Markup :=
  {| markup_range_value := EmptyString;
     markup_view_count := EmptyString;
     markup_month_price := EmptyString;
     markup_discount_classes := ∅ |}.

(** ** Event sequences at a glance *)

(** How many clicks a sequence holds, and the value its last slider move
    stored ([v0] when it has none). *)
Fixpoint clicks (evs : list Event) : nat :=
  match evs with
  | [] => O
  | ClickEvent :: evs' => S (clicks evs')
  | InputEvent _ :: evs' => clicks evs'
  end.

Fixpoint last_input (v0 : string) (evs : list Event) : string :=
  match evs with
  | [] => v0
  | InputEvent v :: evs' => last_input v evs'
  | ClickEvent :: evs' => last_input v0 evs'
  end.

(** The state [handleDiscountToggle] hands to [updatePricing]: the flag
    negated and the button's class set from the new flag. *)
Definition flipped (st : State) : State :=
  let st := set_isYearlyBilling st (negb (isYearlyBilling st)) in
  if isYearlyBilling st
  then set_discountBtn_classList st (classList_add (discountBtn_classList st) "active")
  else set_discountBtn_classList st (classList_remove (discountBtn_classList st) "active").

(** A page with the slider out of the table's range, still showing tier 3. *)
Definition page_out_of_range : State :=
  {| rangeInput_value := "0";
     viewCount_textContent := "100K";
     monthPrice_textContent := "$16";
     discountBtn_classList := ∅;
     isYearlyBilling := false |}.

(** The page after startup on [blank_markup], a move to tier 4 and a click. *)
Definition page_tier4_yearly : State :=
  {| rangeInput_value := "4";
     viewCount_textContent := "500K";
     monthPrice_textContent := "$18";
     discountBtn_classList := classList_add ∅ "active";
     isYearlyBilling := true |}.

(** * Properties *)

(** ** Proof steps *)

(** Case analysis on a tier id between 1 and 5. *)
Ltac tier_cases n :=
  let H := fresh "Htier" in
  assert (H : n = 1 ∨ n = 2 ∨ n = 3 ∨ n = 4 ∨ n = 5) by lia;
  destruct H as [H | [H | [H | [H | H]]]]; subst n.

(** ** Numerals *)

Lemma numeral_value_ToString (n : Z) : numeral_value (ToString n) = Some n.
Proof.
  unfold numeral_value, ToString.
  rewrite NilZero.isi.
  - simpl. f_equal. apply DecimalZ.of_to.
  - destruct n as [|p|p]; simpl; try discriminate.
    intros [= H]. now apply DecimalPos.Unsigned.to_uint_nonnil in H.
  - destruct n as [|p|p]; simpl; try discriminate.
    intros [= H]. now apply DecimalPos.Unsigned.to_uint_nonnil in H.
Qed.

Lemma ToString_eq (n : Z) (s : string) :
  ToString n = s → numeral_value s = Some n.
Proof. intros <-. apply numeral_value_ToString. Qed.

Lemma ToString_inj (n m : Z) : ToString n = ToString m → n = m.
Proof.
  intros H. apply ToString_eq in H.
  rewrite numeral_value_ToString in H. congruence.
Qed.

(** ** The pricing table *)

Lemma PRICING_DATA_lookup (key : string) :
  PRICING_DATA !! key =
    if decide (key = "5") then Some {| views := "1M"; price := 36 |}
    else if decide (key = "4") then Some {| views := "500K"; price := 24 |}
    else if decide (key = "3") then Some {| views := "100K"; price := 16 |}
    else if decide (key = "2") then Some {| views := "50K"; price := 12 |}
    else if decide (key = "1") then Some {| views := "10K"; price := 8 |}
    else None.
Proof.
  unfold PRICING_DATA. cbn [foldl PRICING_DATA_literal fst snd].
  change (ToString 1) with "1". change (ToString 2) with "2".
  change (ToString 3) with "3". change (ToString 4) with "4".
  change (ToString 5) with "5".
  rewrite !lookup_insert, lookup_empty.
  repeat case_decide; congruence.
Qed.

Lemma PRICING_DATA_tier (n : Z) :
  1 ≤ n ≤ 5 →
  ∃ info, PRICING_DATA !! ToString n = Some info ∧ (n, info) ∈ PRICING_DATA_literal.
Proof.
  intros Hn. tier_cases n; rewrite PRICING_DATA_lookup; simpl;
    eexists; (split; [reflexivity |]); unfold PRICING_DATA_literal;
    repeat constructor.
Qed.

Lemma PRICING_DATA_out_of_range (n : Z) :
  n < 1 ∨ 5 < n → PRICING_DATA !! ToString n = None.
Proof.
  intros Hn. rewrite PRICING_DATA_lookup.
  repeat case_decide; try reflexivity;
    match goal with
    | H : ToString n = _ |- _ =>
        apply ToString_eq in H; vm_compute in H; injection H as <-; lia
    end.
Qed.

Lemma numeral_not_inherited (n : Z) : ToString n ∉ Object_prototype_names.
Proof.
  unfold Object_prototype_names. intros Hin.
  repeat (apply elem_of_cons in Hin as [Hin | Hin];
          [apply ToString_eq in Hin; discriminate Hin |]).
  by apply elem_of_nil in Hin.
Qed.

Lemma number_chars_not_inherited (s : string) :
  number_chars s = true → s ∉ Object_prototype_names.
Proof.
  unfold Object_prototype_names. intros Hs Hin.
  repeat (apply elem_of_cons in Hin as [-> | Hin]; [discriminate Hs |]).
  by apply elem_of_nil in Hin.
Qed.

Lemma PRICING_DATA_get_own (key : string) (info : PricingInfo) :
  PRICING_DATA !! key = Some info → PRICING_DATA_get key = Own info.
Proof. unfold PRICING_DATA_get. by intros ->. Qed.

Lemma PRICING_DATA_get_undefined (key : string) :
  PRICING_DATA !! key = None → key ∉ Object_prototype_names →
  PRICING_DATA_get key = Undefined.
Proof.
  unfold PRICING_DATA_get. intros -> Hk. by rewrite bool_decide_eq_false_2.
Qed.

(** ** What [updatePricing] does, by the kind of entry the slider's value keys *)

Lemma updatePricing_undefined (st : State) :
  PRICING_DATA_get (rangeInput_value st) = Undefined → updatePricing st = Normal st.
Proof. unfold updatePricing. by intros ->. Qed.

Lemma updatePricing_own (st : State) (info : PricingInfo) :
  PRICING_DATA_get (rangeInput_value st) = Own info →
  updatePricing st =
    Normal (set_monthPrice_textContent
              (set_viewCount_textContent st (views info))
              ("$" ++ Number_toString
                        (if isYearlyBilling st
                         then Qred (price info * sub 1 YEARLY_DISCOUNT)
                         else price info))).
Proof.
  unfold updatePricing. intros ->. simpl.
  by destruct (isYearlyBilling st).
Qed.

Lemma updatePricing_inherited (st : State) :
  PRICING_DATA_get (rangeInput_value st) = Inherited →
  updatePricing st =
    Normal (set_monthPrice_textContent
              (set_viewCount_textContent st EmptyString)
              (if isYearlyBilling st then "$NaN" else "$undefined")).
Proof.
  unfold updatePricing. intros ->. simpl.
  by destruct (isYearlyBilling st).
Qed.

(** The guard keeps the property reads away from [undefined]: the function
    always completes normally, and never touches the slider's value, the flag
    or the button's classes. *)
Lemma updatePricing_normal (st : State) :
  ∃ st', updatePricing st = Normal st'
         ∧ rangeInput_value st' = rangeInput_value st
         ∧ isYearlyBilling st' = isYearlyBilling st
         ∧ discountBtn_classList st' = discountBtn_classList st.
Proof.
  destruct (PRICING_DATA_get (rangeInput_value st)) as [| info |] eqn:E.
  - rewrite (updatePricing_undefined _ E). eauto.
  - rewrite (updatePricing_own _ _ E). eauto.
  - rewrite (updatePricing_inherited _ E). eauto.
Qed.

(** Rendering twice changes nothing more. *)
Lemma updatePricing_idempotent (st st' : State) :
  updatePricing st = Normal st' → updatePricing st' = Normal st'.
Proof.
  destruct (PRICING_DATA_get (rangeInput_value st)) as [| info |] eqn:E.
  - rewrite (updatePricing_undefined _ E). by intros [= <-]; apply updatePricing_undefined.
  - rewrite (updatePricing_own _ _ E). intros [= <-].
    by rewrite (updatePricing_own _ info).
  - rewrite (updatePricing_inherited _ E). intros [= <-].
    by rewrite updatePricing_inherited.
Qed.

(** ** Out-of-range slider values *)

(** C1, as stated, fails: with the slider at 0 or at 6, [updatePricing]
    does not fail with an error of any kind; it completes normally. *)
Lemma C1_counterexample :
  updatePricing (set_rangeInput_value page_tier3 (ToString 0))
    = Normal (set_rangeInput_value page_tier3 (ToString 0))
  ∧ updatePricing (set_rangeInput_value page_tier3 (ToString 6))
    = Normal (set_rangeInput_value page_tier3 (ToString 6))
  ∧ ¬ (∃ e, updatePricing (set_rangeInput_value page_tier3 (ToString 0)) = Throw e)
  ∧ ¬ (∃ e, updatePricing (set_rangeInput_value page_tier3 (ToString 6)) = Throw e).
Proof.
  assert (H0 : updatePricing (set_rangeInput_value page_tier3 (ToString 0))
               = Normal (set_rangeInput_value page_tier3 (ToString 0)))
    by (vm_compute; reflexivity).
  assert (H6 : updatePricing (set_rangeInput_value page_tier3 (ToString 6))
               = Normal (set_rangeInput_value page_tier3 (ToString 6)))
    by (vm_compute; reflexivity).
  repeat split; try assumption.
  - intros [e He]. rewrite H0 in He. discriminate He.
  - intros [e He]. rewrite H6 in He. discriminate He.
Qed.

(** C1, amended: for every tier id outside [1,5], [updatePricing] with that
    slider value raises no error; it completes normally and leaves the whole
    state as it was: the slider's value, the billing flag, the button's
    classes and both display surfaces. *)
Theorem C1_out_of_range_is_silent (n : Z) (st : State) :
  n < 1 ∨ 5 < n →
  rangeInput_value st = ToString n →
  updatePricing st = Normal st.
Proof.
  intros Hn Hv. apply updatePricing_undefined. rewrite Hv.
  apply PRICING_DATA_get_undefined.
  - by apply PRICING_DATA_out_of_range.
  - apply numeral_not_inherited.
Qed.

Lemma C1_out_of_range_is_silent_witness :
  (0 < 1 ∨ 5 < 0)
  ∧ rangeInput_value (set_rangeInput_value page_tier3 "0") = ToString 0
  ∧ updatePricing (set_rangeInput_value page_tier3 "0")
    = Normal (set_rangeInput_value page_tier3 "0").
Proof.
  split; [left; lia |]. split; [reflexivity |].
  apply (C1_out_of_range_is_silent 0); [left; lia | reflexivity].
Defined.

(** C10: for every value a slider can hold, [updatePricing] completes
    normally, and when the value keys no entry of the pricing table it
    leaves the state, both display surfaces included, exactly as it was. *)
Theorem C10_updatePricing_never_throws (st : State) :
  number_chars (rangeInput_value st) = true →
  ∃ st', updatePricing st = Normal st'
         ∧ (PRICING_DATA !! rangeInput_value st = None → st' = st).
Proof.
  intros Hv.
  destruct (PRICING_DATA !! rangeInput_value st) as [info |] eqn:E.
  - destruct (updatePricing_normal st) as (st' & H & _).
    exists st'. split; [exact H | discriminate].
  - exists st. split; [| reflexivity].
    apply updatePricing_undefined, PRICING_DATA_get_undefined; [exact E |].
    by apply number_chars_not_inherited.
Qed.

Lemma C10_updatePricing_never_throws_witness :
  number_chars (rangeInput_value (set_rangeInput_value page_tier3 "7.5")) = true
  ∧ ∃ st', updatePricing (set_rangeInput_value page_tier3 "7.5") = Normal st'
           ∧ (PRICING_DATA !! "7.5" = None
              → st' = set_rangeInput_value page_tier3 "7.5").
Proof.
  split; [reflexivity |].
  apply (C10_updatePricing_never_throws (set_rangeInput_value page_tier3 "7.5")).
  reflexivity.
Defined.

(** ** The displayed price *)

(** Closes the goal for one tier and one billing mode, given the integer [p]
    that the price surface shows. *)
Ltac shown_price Hrender p :=
  eexists _, _, p;
  (split; [rewrite PRICING_DATA_lookup; reflexivity |]);
  (split; [apply Hrender; rewrite PRICING_DATA_lookup; reflexivity |]);
  (split; [simpl; vm_compute; reflexivity | vm_compute; reflexivity]).

(** C2: for every tier id in [1,5] and both billing modes, the price surface
    shows [$] followed by the numeral of a number that is exactly the tier's
    base price times 0.75 (yearly) or times 1 (monthly). *)
Theorem C2_displayed_price_exact (n : Z) (st : State) :
  1 ≤ n ≤ 5 →
  rangeInput_value st = ToString n →
  ∃ (info : PricingInfo) (st' : State) (p : Z),
    PRICING_DATA !! ToString n = Some info
    ∧ updatePricing st = Normal st'
    ∧ monthPrice_textContent st' = "$" ++ ToString p
    ∧ (inject_Z p == price info * (if isYearlyBilling st then 0.75 else 1))%Q.
Proof.
  intros Hn Hv.
  assert (Hrender : ∀ info, PRICING_DATA !! ToString n = Some info →
            updatePricing st = Normal (set_monthPrice_textContent
              (set_viewCount_textContent st (views info))
              ("$" ++ Number_toString
                        (if isYearlyBilling st
                         then Qred (price info * sub 1 YEARLY_DISCOUNT)
                         else price info)))).
  { intros info Hi. apply updatePricing_own. rewrite Hv.
    by apply PRICING_DATA_get_own. }
  destruct (isYearlyBilling st) eqn:Eb; tier_cases n.
  - shown_price Hrender 6.
  - shown_price Hrender 9.
  - shown_price Hrender 12.
  - shown_price Hrender 18.
  - shown_price Hrender 27.
  - shown_price Hrender 8.
  - shown_price Hrender 12.
  - shown_price Hrender 16.
  - shown_price Hrender 24.
  - shown_price Hrender 36.
Qed.

Lemma C2_displayed_price_exact_witness :
  1 ≤ 4 ≤ 5
  ∧ rangeInput_value (set_isYearlyBilling (set_rangeInput_value page_tier3 "4") true)
    = ToString 4
  ∧ ∃ (info : PricingInfo) (st' : State) (p : Z),
      PRICING_DATA !! ToString 4 = Some info
      ∧ updatePricing (set_isYearlyBilling (set_rangeInput_value page_tier3 "4") true)
        = Normal st'
      ∧ monthPrice_textContent st' = "$" ++ ToString p
      ∧ (inject_Z p == price info * 0.75)%Q.
Proof.
  split; [lia |]. split; [reflexivity |].
  apply (C2_displayed_price_exact 4
           (set_isYearlyBilling (set_rangeInput_value page_tier3 "4") true));
    [lia | reflexivity].
Defined.

(** ** The handlers, field by field *)

Lemma handleRangeChange_entry (st : State) (v : string) (info : PricingInfo) :
  PRICING_DATA !! v = Some info →
  ∃ st', dispatch st (InputEvent v) = Normal st'
         ∧ rangeInput_value st' = v
         ∧ isYearlyBilling st' = isYearlyBilling st
         ∧ discountBtn_classList st' = discountBtn_classList st
         ∧ viewCount_textContent st' = views info
         ∧ monthPrice_textContent st' = price_text info (isYearlyBilling st).
Proof.
  intros Hi. eexists. split.
  - unfold dispatch, handleRangeChange. apply updatePricing_own.
    by apply PRICING_DATA_get_own.
  - by simpl.
Qed.

Lemma classList_add_has (c : gset string) (token : string) :
  token ∈ classList_add c token.
Proof.
  unfold classList_add. apply elem_of_union. left. by apply elem_of_singleton.
Qed.

Lemma classList_remove_lacks (c : gset string) (token : string) :
  token ∉ classList_remove c token.
Proof.
  unfold classList_remove. rewrite elem_of_difference, elem_of_singleton.
  by intros [_ H].
Qed.

Lemma handleDiscountToggle_flips (st : State) :
  ∃ st', dispatch st ClickEvent = Normal st'
         ∧ rangeInput_value st' = rangeInput_value st
         ∧ isYearlyBilling st' = negb (isYearlyBilling st)
         ∧ (marker_active st' ↔ isYearlyBilling st' = true).
Proof.
  unfold dispatch, handleDiscountToggle.
  match goal with
  | |- ∃ st', updatePricing ?s = _ ∧ _ =>
      destruct (updatePricing_normal s) as (st' & Hrun & Hv & Hb & Hc)
  end.
  exists st'. split; [exact Hrun |].
  unfold marker_active. rewrite Hv, Hb, Hc. clear.
  destruct (isYearlyBilling st); simpl; (split; [reflexivity |]);
    (split; [reflexivity |]).
  - split; [intros H; exfalso; by apply classList_remove_lacks in H | discriminate].
  - split; [reflexivity | intros _; apply classList_add_has].
Qed.

Lemma handleDiscountToggle_entry (st : State) (info : PricingInfo) :
  PRICING_DATA !! rangeInput_value st = Some info →
  ∃ st', dispatch st ClickEvent = Normal st'
         ∧ rangeInput_value st' = rangeInput_value st
         ∧ isYearlyBilling st' = negb (isYearlyBilling st)
         ∧ viewCount_textContent st' = views info
         ∧ monthPrice_textContent st' = price_text info (negb (isYearlyBilling st)).
Proof.
  intros Hi. eexists. split.
  - unfold dispatch, handleDiscountToggle. apply updatePricing_own.
    destruct (isYearlyBilling st); simpl; by apply PRICING_DATA_get_own.
  - by destruct (isYearlyBilling st).
Qed.

(** ** Sequences of events *)

Lemma run_step (st st' : State) (ev : Event) (evs : list Event) :
  dispatch st ev = Normal st' → run st (ev :: evs) = run st' evs.
Proof. intros H. cbn [run]. by rewrite H. Qed.

(** No handler throws, so every sequence of events runs to its end. *)
Lemma dispatch_normal (st : State) (ev : Event) :
  ∃ st', dispatch st ev = Normal st'.
Proof.
  destruct ev as [v |].
  - destruct (updatePricing_normal (set_rangeInput_value st v)) as (st' & H & _).
    by exists st'.
  - destruct (handleDiscountToggle_flips st) as (st' & H & _). by exists st'.
Qed.

(** ** Startup *)

Lemma startup_normal (m : Markup) :
  ∃ st, startup m = Normal st
        ∧ rangeInput_value st = ToString 3
        ∧ isYearlyBilling st = false.
Proof.
  destruct (updatePricing_normal
              (set_rangeInput_value (script_loaded m) (ToString DEFAULT_RANGE_VALUE)))
    as (st & H & Hr & Hb & _).
  exists st. auto.
Qed.

(** C4: after initialization and before any event, the slider is at 3, the
    billing flag is false, the view-count surface reads 100K and the price
    surface reads $16, whatever the markup held before. *)
Theorem C4_initial_state (m : Markup) :
  ∃ st, startup m = Normal st
        ∧ run st [] = Normal st
        ∧ rangeInput_value st = ToString 3
        ∧ isYearlyBilling st = false
        ∧ viewCount_textContent st = "100K"
        ∧ monthPrice_textContent st = "$16".
Proof.
  eexists. split.
  - unfold startup, initializeComponent. apply updatePricing_own.
    apply PRICING_DATA_get_own. simpl.
    rewrite PRICING_DATA_lookup. reflexivity.
  - repeat split.
Qed.

(** ** Boundary tiers *)

(** C7: moving the slider to tier 1 shows 10K with $8 monthly and $6 yearly;
    moving it to tier 5 shows 1M with $36 monthly and $27 yearly. *)
Theorem C7_boundary_tiers (st : State) :
  (∃ st', dispatch st (setTier 1) = Normal st'
          ∧ viewCount_textContent st' = "10K"
          ∧ monthPrice_textContent st' = (if isYearlyBilling st then "$6" else "$8"))
  ∧ (∃ st', dispatch st (setTier 5) = Normal st'
            ∧ viewCount_textContent st' = "1M"
            ∧ monthPrice_textContent st' = (if isYearlyBilling st then "$27" else "$36")).
Proof.
  split.
  - destruct (handleRangeChange_entry st (ToString 1) {| views := "10K"; price := 8 |})
      as (st' & Hrun & _ & _ & _ & Hv & Hp).
    { rewrite PRICING_DATA_lookup. reflexivity. }
    exists st'. split; [exact Hrun |]. split; [exact Hv |].
    rewrite Hp. by destruct (isYearlyBilling st).
  - destruct (handleRangeChange_entry st (ToString 5) {| views := "1M"; price := 36 |})
      as (st' & Hrun & _ & _ & _ & Hv & Hp).
    { rewrite PRICING_DATA_lookup. reflexivity. }
    exists st'. split; [exact Hrun |]. split; [exact Hv |].
    rewrite Hp. by destruct (isYearlyBilling st).
Qed.

(** ** Transitions *)

(** C5: from a state with the slider at a tier [s] in [1,5], moving the
    slider to a tier [n] in [1,5] makes [n] the selected tier and keeps the
    billing flag, and a click on the toggle negates the billing flag and
    keeps the selected tier. *)
Theorem C5_transitions (s n : Z) (st : State) :
  1 ≤ s ≤ 5 →
  1 ≤ n ≤ 5 →
  rangeInput_value st = ToString s →
  (∃ st', dispatch st (setTier n) = Normal st'
          ∧ rangeInput_value st' = ToString n
          ∧ isYearlyBilling st' = isYearlyBilling st)
  ∧ (∃ st', dispatch st toggleBilling = Normal st'
            ∧ rangeInput_value st' = ToString s
            ∧ isYearlyBilling st' = negb (isYearlyBilling st)).
Proof.
  intros Hs Hn Hv. split.
  - destruct (PRICING_DATA_tier n Hn) as (info & Hi & _).
    destruct (handleRangeChange_entry st _ _ Hi) as (st' & Hrun & Hr & Hb & _).
    exists st'. auto.
  - destruct (handleDiscountToggle_flips st) as (st' & Hrun & Hr & Hb & _).
    exists st'. rewrite Hr, Hv. auto.
Qed.

Lemma C5_transitions_witness :
  1 ≤ 3 ≤ 5 ∧ 1 ≤ 5 ≤ 5 ∧ rangeInput_value page_tier3 = ToString 3
  ∧ (∃ st', dispatch page_tier3 (setTier 5) = Normal st'
            ∧ rangeInput_value st' = ToString 5
            ∧ isYearlyBilling st' = isYearlyBilling page_tier3)
  ∧ (∃ st', dispatch page_tier3 toggleBilling = Normal st'
            ∧ rangeInput_value st' = ToString 3
            ∧ isYearlyBilling st' = negb (isYearlyBilling page_tier3)).
Proof.
  split; [lia |]. split; [lia |]. split; [reflexivity |].
  apply (C5_transitions 3 5 page_tier3); [lia | lia | reflexivity].
Defined.

(** ** Double toggle *)

(** C6: with the slider at a tier in [1,5] and the surfaces showing the
    current state, two clicks on the toggle in succession bring the billing
    flag and the displayed price back to what they were. *)
Theorem C6_double_toggle (t : Z) (st : State) :
  1 ≤ t ≤ 5 →
  rangeInput_value st = ToString t →
  displays_current st →
  ∃ st'', run st [toggleBilling; toggleBilling] = Normal st''
          ∧ isYearlyBilling st'' = isYearlyBilling st
          ∧ monthPrice_textContent st'' = monthPrice_textContent st
          ∧ viewCount_textContent st'' = viewCount_textContent st.
Proof.
  intros Ht Hv Hshown.
  destruct (PRICING_DATA_tier t Ht) as (info & Hi & _). rewrite <- Hv in Hi.
  destruct (handleDiscountToggle_entry st info Hi) as (st1 & Hrun1 & Hr1 & Hb1 & _).
  assert (Hi1 : PRICING_DATA !! rangeInput_value st1 = Some info) by (by rewrite Hr1).
  destruct (handleDiscountToggle_entry st1 info Hi1) as (st2 & Hrun2 & _ & Hb2 & Hv2 & Hp2).
  exists st2. split.
  - unfold toggleBilling. by rewrite (run_step _ _ _ _ Hrun1), (run_step _ _ _ _ Hrun2).
  - rewrite Hb1, negb_involutive in Hb2. rewrite Hb1, negb_involutive in Hp2.
    unfold displays_current in Hshown.
    rewrite (updatePricing_own st info) in Hshown by (by apply PRICING_DATA_get_own).
    injection Hshown as Hshown.
    split; [exact Hb2 |].
    rewrite Hp2, Hv2, <- Hshown. by simpl.
Qed.

Lemma C6_double_toggle_witness :
  1 ≤ 3 ≤ 5 ∧ rangeInput_value page_tier3 = ToString 3 ∧ displays_current page_tier3
  ∧ ∃ st'', run page_tier3 [toggleBilling; toggleBilling] = Normal st''
            ∧ isYearlyBilling st'' = isYearlyBilling page_tier3
            ∧ monthPrice_textContent st'' = monthPrice_textContent page_tier3
            ∧ viewCount_textContent st'' = viewCount_textContent page_tier3.
Proof.
  assert (Hshown : displays_current page_tier3) by (vm_compute; reflexivity).
  split; [lia |]. split; [reflexivity |]. split; [exact Hshown |].
  apply (C6_double_toggle 3 page_tier3); [lia | reflexivity | exact Hshown].
Defined.

(** Every state the page reaches shows the current state on its surfaces. *)
Lemma run_displays_current (evs : list Event) (st st' : State) :
  displays_current st → run st evs = Normal st' → displays_current st'.
Proof.
  revert st. induction evs as [| ev evs IH]; intros st Hshown Hrun.
  - injection Hrun as <-. exact Hshown.
  - destruct (dispatch_normal st ev) as (st1 & H1).
    rewrite (run_step _ _ _ _ H1) in Hrun.
    apply (IH st1); [| exact Hrun].
    destruct ev; by apply updatePricing_idempotent in H1.
Qed.

Lemma startup_displays_current (m : Markup) (evs : list Event) (st0 st : State) :
  startup m = Normal st0 → run st0 evs = Normal st → displays_current st.
Proof.
  intros H0. apply run_displays_current.
  by apply updatePricing_idempotent in H0.
Qed.

(** ** End-to-end scenario *)

(** C3: from the initial state, moving the slider to tier 4 shows 500K and
    $24; a click on the toggle then shows $18 and leaves 500K; moving the
    slider to tier 2 then shows 50K and $9, the yearly discount still
    applied. *)
Theorem C3_scenario (m : Markup) :
  ∃ s0 s1 s2 s3,
    startup m = Normal s0
    ∧ dispatch s0 (setTier 4) = Normal s1
    ∧ viewCount_textContent s1 = "500K" ∧ monthPrice_textContent s1 = "$24"
    ∧ dispatch s1 toggleBilling = Normal s2
    ∧ monthPrice_textContent s2 = "$18"
    ∧ viewCount_textContent s2 = viewCount_textContent s1
    ∧ dispatch s2 (setTier 2) = Normal s3
    ∧ viewCount_textContent s3 = "50K" ∧ monthPrice_textContent s3 = "$9"
    ∧ isYearlyBilling s3 = true
    ∧ run s0 [setTier 4; toggleBilling; setTier 2] = Normal s3.
Proof.
  destruct (startup_normal m) as (s0 & H0 & _ & Hb0).
  destruct (handleRangeChange_entry s0 (ToString 4) {| views := "500K"; price := 24 |})
    as (s1 & H1 & Hr1 & Hb1 & _ & Hv1 & Hp1).
  { rewrite PRICING_DATA_lookup. reflexivity. }
  destruct (handleDiscountToggle_entry s1 {| views := "500K"; price := 24 |})
    as (s2 & H2 & Hr2 & Hb2 & Hv2 & Hp2).
  { rewrite Hr1, PRICING_DATA_lookup. reflexivity. }
  destruct (handleRangeChange_entry s2 (ToString 2) {| views := "50K"; price := 12 |})
    as (s3 & H3 & Hr3 & Hb3 & _ & Hv3 & Hp3).
  { rewrite PRICING_DATA_lookup. reflexivity. }
  rewrite Hb0 in Hb1, Hp1. rewrite Hb1 in Hb2, Hp2. simpl in Hb2.
  rewrite Hb2 in Hb3, Hp3.
  exists s0, s1, s2, s3.
  repeat split; try assumption.
  - by rewrite Hv2, Hv1.
  - by rewrite (run_step _ _ _ _ H1), (run_step _ _ _ _ H2), (run_step _ _ _ _ H3).
Qed.

(** ** The pricing table: ids and monotonicity *)

Lemma PRICING_DATA_keys (key : string) :
  is_Some (PRICING_DATA !! key) ↔ ∃ n, 1 ≤ n ≤ 5 ∧ key = ToString n.
Proof.
  split.
  - rewrite PRICING_DATA_lookup. intros [info Hi].
    repeat case_decide; try discriminate Hi; subst key;
      [exists 5 | exists 4 | exists 3 | exists 2 | exists 1]; (split; [lia | reflexivity]).
  - intros (n & Hn & ->). destruct (PRICING_DATA_tier n Hn) as (info & Hi & _).
    by exists info.
Qed.

(** C8: the table's ids are the contiguous integers 1..5, none repeated, its
    own properties are exactly the numerals of those ids, and for tier ids
    [i <= j] in [1,5] the base price of [i] is at most that of [j]. *)
Theorem C8_table_monotone (i j : Z) :
  1 ≤ i → i ≤ j → j ≤ 5 →
  PRICING_DATA_literal.*1 = seqZ 1 5
  ∧ NoDup (PRICING_DATA_literal.*1)
  ∧ dom PRICING_DATA = list_to_set (ToString <$> seqZ 1 5)
  ∧ ∃ ti tj, PRICING_DATA !! ToString i = Some ti
             ∧ PRICING_DATA !! ToString j = Some tj
             ∧ (price ti <= price tj)%Q.
Proof.
  intros Hi Hij Hj.
  assert (Hkeys : PRICING_DATA_literal.*1 = seqZ 1 5) by reflexivity.
  split; [exact Hkeys |].
  split; [rewrite Hkeys; apply NoDup_seqZ |].
  split.
  - apply set_eq. intros key.
    rewrite elem_of_dom, PRICING_DATA_keys, elem_of_list_to_set, list_elem_of_fmap.
    split.
    + intros (n & Hn & ->). exists n. split; [reflexivity |].
      apply elem_of_seqZ. lia.
    + intros (n & -> & Hn). exists n. split; [| reflexivity].
      apply elem_of_seqZ in Hn. lia.
  - assert (Hi' : 1 ≤ i ≤ 5) by lia. assert (Hj' : 1 ≤ j ≤ 5) by lia.
    tier_cases i; tier_cases j; try lia;
      eexists _, _; rewrite !PRICING_DATA_lookup;
      (split; [reflexivity |]); (split; [reflexivity |]);
      unfold Qle; simpl; lia.
Qed.

Lemma C8_table_monotone_witness :
  1 ≤ 2 ∧ 2 ≤ 4 ∧ 4 ≤ 5
  ∧ PRICING_DATA_literal.*1 = seqZ 1 5
  ∧ NoDup (PRICING_DATA_literal.*1)
  ∧ dom PRICING_DATA = list_to_set (ToString <$> seqZ 1 5)
  ∧ ∃ ti tj, PRICING_DATA !! ToString 2 = Some ti
             ∧ PRICING_DATA !! ToString 4 = Some tj
             ∧ (price ti <= price tj)%Q.
Proof.
  split; [lia |]. split; [lia |]. split; [lia |].
  apply (C8_table_monotone 2 4); lia.
Defined.

(** ** The toggle's marker *)

Lemma run_marker_agrees (evs : list Event) (st : State) :
  marker_agrees st ∨ ClickEvent ∈ evs →
  ∃ st', run st evs = Normal st' ∧ marker_agrees st'.
Proof.
  revert st. induction evs as [| ev evs IH]; intros st H.
  - destruct H as [H | H]; [by exists st | by apply elem_of_nil in H].
  - destruct ev as [v |].
    + destruct (updatePricing_normal (set_rangeInput_value st v))
        as (st1 & H1 & _ & Hb & Hc).
      destruct (IH st1) as (st' & Hrun & Hm).
      { destruct H as [H | H].
        - left. unfold marker_agrees, marker_active in *. by rewrite Hb, Hc.
        - right. apply elem_of_cons in H as [H | H]; [discriminate H | exact H]. }
      exists st'. split; [| exact Hm].
      by rewrite (run_step st st1).
    + destruct (handleDiscountToggle_flips st) as (st1 & H1 & _ & _ & Hm1).
      destruct (IH st1) as (st' & Hrun & Hm); [by left |].
      exists st'. split; [| exact Hm].
      by rewrite (run_step st st1).
Qed.

(** C9: after any sequence of slider moves and toggle clicks from the
    initial state, the button carries the [active] class exactly when
    [isYearlyBilling] is true, provided the markup starts the button without
    that class (or the sequence has a click). *)
Theorem C9_marker_follows_flag (m : Markup) (evs : list Event) :
  "active" ∉ markup_discount_classes m ∨ ClickEvent ∈ evs →
  ∃ st0 st, startup m = Normal st0
            ∧ run st0 evs = Normal st
            ∧ (marker_active st ↔ isYearlyBilling st = true).
Proof.
  intros H.
  destruct (updatePricing_normal
              (set_rangeInput_value (script_loaded m) (ToString DEFAULT_RANGE_VALUE)))
    as (st0 & H0 & _ & Hb & Hc).
  destruct (run_marker_agrees evs st0) as (st & Hrun & Hm).
  { destruct H as [H | H]; [left | by right].
    unfold marker_agrees, marker_active. rewrite Hb, Hc. simpl.
    split; [intros Hin; by destruct H | discriminate]. }
  by exists st0, st.
Qed.

Lemma C9_marker_follows_flag_witness :
  ("active" ∉ markup_discount_classes blank_markup
   ∨ ClickEvent ∈ [setTier 4; toggleBilling; setTier 2])
  ∧ ∃ st0 st, startup blank_markup = Normal st0
              ∧ run st0 [setTier 4; toggleBilling; setTier 2] = Normal st
              ∧ (marker_active st ↔ isYearlyBilling st = true).
Proof.
  assert (H : "active" ∉ markup_discount_classes blank_markup)
    by (simpl; apply not_elem_of_empty).
  split; [by left |].
  apply (C9_marker_follows_flag blank_markup [setTier 4; toggleBilling; setTier 2]).
  by left.
Defined.

(** * Further properties of the handlers *)

Lemma handleDiscountToggle_flipped (st : State) :
  handleDiscountToggle st = updatePricing (flipped st).
Proof. reflexivity. Qed.

Lemma flipped_fields (st : State) :
  rangeInput_value (flipped st) = rangeInput_value st
  ∧ isYearlyBilling (flipped st) = negb (isYearlyBilling st)
  ∧ viewCount_textContent (flipped st) = viewCount_textContent st
  ∧ monthPrice_textContent (flipped st) = monthPrice_textContent st.
Proof. unfold flipped. by destruct (isYearlyBilling st). Qed.

Lemma State_eq (a b : State) :
  rangeInput_value a = rangeInput_value b →
  viewCount_textContent a = viewCount_textContent b →
  monthPrice_textContent a = monthPrice_textContent b →
  discountBtn_classList a = discountBtn_classList b →
  isYearlyBilling a = isYearlyBilling b →
  a = b.
Proof. destruct a, b. simpl. by intros -> -> -> -> ->. Qed.

(** X1: rendering is idempotent: from any state [updatePricing] completes,
    and running it again on the result changes nothing. *)
Theorem X1_render_idempotent (st : State) :
  ∃ st', updatePricing st = Normal st' ∧ updatePricing st' = Normal st'.
Proof.
  destruct (updatePricing_normal st) as (st' & H & _).
  exists st'. split; [exact H |]. by apply updatePricing_idempotent in H.
Qed.

(** X2: every sequence of events runs to its end without a throw, from any
    state and for any slider values; afterwards the slider holds the value
    of the last slider move, and the billing flag is the initial flag
    negated once per click. *)
Theorem X2_run_flag_and_slider (st : State) (evs : list Event) :
  ∃ st', run st evs = Normal st'
         ∧ rangeInput_value st' = last_input (rangeInput_value st) evs
         ∧ isYearlyBilling st' = xorb (isYearlyBilling st) (Nat.odd (clicks evs)).
Proof.
  revert st. induction evs as [| ev evs IH]; intros st.
  - exists st. simpl. by rewrite xorb_false_r.
  - destruct ev as [v |].
    + destruct (updatePricing_normal (set_rangeInput_value st v))
        as (st1 & H1 & Hr1 & Hb1 & _).
      destruct (IH st1) as (st' & Hrun & Hr & Hb).
      exists st'. split; [by rewrite (run_step st st1) |].
      simpl in *. by rewrite Hr, Hb, Hr1, Hb1.
    + destruct (handleDiscountToggle_flips st) as (st1 & H1 & Hr1 & Hb1 & _).
      destruct (IH st1) as (st' & Hrun & Hr & Hb).
      exists st'. split; [by rewrite (run_step st st1) |].
      cbn [last_input clicks]. rewrite Hr, Hb, Hr1, Hb1.
      split; [reflexivity |].
      rewrite Nat.odd_succ, <- Nat.negb_odd.
      by destruct (isYearlyBilling st), (Nat.odd (clicks evs)).
Qed.

Lemma flipped_classes (st : State) :
  discountBtn_classList (flipped st) =
    if negb (isYearlyBilling st)
    then classList_add (discountBtn_classList st) "active"
    else classList_remove (discountBtn_classList st) "active".
Proof. unfold flipped. by destruct (isYearlyBilling st). Qed.

(** When the slider's value reads something from the table object, both
    surfaces are overwritten: states that agree on the slider's value, the
    flag and the button's classes render to the same state. *)
Lemma updatePricing_ext (a b : State) :
  rangeInput_value a = rangeInput_value b →
  isYearlyBilling a = isYearlyBilling b →
  discountBtn_classList a = discountBtn_classList b →
  PRICING_DATA_get (rangeInput_value a) ≠ Undefined →
  updatePricing a = updatePricing b.
Proof.
  intros Hr Hb Hc Hne.
  destruct (PRICING_DATA_get (rangeInput_value a)) as [| info |] eqn:E; [done | |].
  - rewrite (updatePricing_own _ _ E). rewrite Hr in E.
    rewrite (updatePricing_own _ _ E). f_equal. apply State_eq; simpl; rewrite ?Hb; auto.
  - rewrite (updatePricing_inherited _ E). rewrite Hr in E.
    rewrite (updatePricing_inherited _ E). f_equal. apply State_eq; simpl; rewrite ?Hb; auto.
Qed.

Lemma classList_add_remove (c : gset string) (token : string) :
  token ∈ c → classList_add (classList_remove c token) token = c.
Proof.
  intros Hin. unfold classList_add, classList_remove. apply set_eq. intros x.
  rewrite elem_of_union, elem_of_difference, elem_of_singleton.
  destruct (decide (x = token)) as [-> | Hne]; tauto.
Qed.

Lemma classList_remove_add (c : gset string) (token : string) :
  token ∉ c → classList_remove (classList_add c token) token = c.
Proof.
  intros Hin. unfold classList_add, classList_remove. apply set_eq. intros x.
  rewrite elem_of_difference, elem_of_union, elem_of_singleton.
  destruct (decide (x = token)) as [-> | Hne]; tauto.
Qed.

(** X3: in every state reached from startup, whenever the slider's value
    keys an entry of the table, the view-count surface shows that entry's
    views and the price surface shows its price under the current billing
    flag. *)
Theorem X3_reachable_surfaces_current
    (m : Markup) (evs : list Event) (st0 st : State) (info : PricingInfo) :
  startup m = Normal st0 →
  run st0 evs = Normal st →
  PRICING_DATA !! rangeInput_value st = Some info →
  viewCount_textContent st = views info
  ∧ monthPrice_textContent st = price_text info (isYearlyBilling st).
Proof.
  intros H0 Hrun Hi.
  pose proof (startup_displays_current m evs st0 st H0 Hrun) as Hshown.
  unfold displays_current in Hshown.
  rewrite (updatePricing_own st info) in Hshown by (by apply PRICING_DATA_get_own).
  injection Hshown as Hshown.
  split; by rewrite <- Hshown at 1.
Qed.

Lemma X3_reachable_surfaces_current_witness :
  startup blank_markup = Normal page_tier3
  ∧ run page_tier3 [setTier 4; toggleBilling] = Normal page_tier4_yearly
  ∧ PRICING_DATA !! rangeInput_value page_tier4_yearly
    = Some {| views := "500K"; price := 24 |}
  ∧ viewCount_textContent page_tier4_yearly = "500K"
  ∧ monthPrice_textContent page_tier4_yearly
    = price_text {| views := "500K"; price := 24 |} true.
Proof.
  assert (H0 : startup blank_markup = Normal page_tier3) by (vm_compute; reflexivity).
  assert (H1 : run page_tier3 [setTier 4; toggleBilling] = Normal page_tier4_yearly)
    by (vm_compute; reflexivity).
  assert (H2 : PRICING_DATA !! rangeInput_value page_tier4_yearly
               = Some {| views := "500K"; price := 24 |})
    by (vm_compute; reflexivity).
  split; [exact H0 |]. split; [exact H1 |]. split; [exact H2 |].
  exact (X3_reachable_surfaces_current blank_markup [setTier 4; toggleBilling]
           page_tier3 page_tier4_yearly _ H0 H1 H2).
Defined.

(** X4: a click while the slider holds a value that keys no entry still
    negates the flag and sets the button's class from it, but renders
    nothing: both surfaces keep their texts, so the price shown no longer
    follows the billing flag. *)
Theorem X4_click_out_of_range_keeps_surfaces (st : State) :
  number_chars (rangeInput_value st) = true →
  PRICING_DATA !! rangeInput_value st = None →
  dispatch st ClickEvent = Normal (flipped st)
  ∧ isYearlyBilling (flipped st) = negb (isYearlyBilling st)
  ∧ (marker_active (flipped st) ↔ isYearlyBilling (flipped st) = true)
  ∧ viewCount_textContent (flipped st) = viewCount_textContent st
  ∧ monthPrice_textContent (flipped st) = monthPrice_textContent st.
Proof.
  intros Hv Hnone.
  destruct (flipped_fields st) as (Hr & Hb & Hvc & Hmp).
  assert (Hrun : dispatch st ClickEvent = Normal (flipped st)).
  { unfold dispatch. rewrite handleDiscountToggle_flipped.
    apply updatePricing_undefined. rewrite Hr.
    apply PRICING_DATA_get_undefined; [exact Hnone |].
    by apply number_chars_not_inherited. }
  destruct (handleDiscountToggle_flips st) as (st' & Hrun' & _ & _ & Hm).
  rewrite Hrun in Hrun'. injection Hrun' as <-.
  auto.
Qed.

Lemma X4_click_out_of_range_keeps_surfaces_witness :
  number_chars (rangeInput_value page_out_of_range) = true
  ∧ PRICING_DATA !! rangeInput_value page_out_of_range = None
  ∧ dispatch page_out_of_range ClickEvent = Normal (flipped page_out_of_range)
  ∧ isYearlyBilling (flipped page_out_of_range)
    = negb (isYearlyBilling page_out_of_range)
  ∧ (marker_active (flipped page_out_of_range)
     ↔ isYearlyBilling (flipped page_out_of_range) = true)
  ∧ viewCount_textContent (flipped page_out_of_range)
    = viewCount_textContent page_out_of_range
  ∧ monthPrice_textContent (flipped page_out_of_range)
    = monthPrice_textContent page_out_of_range.
Proof.
  assert (Hv : number_chars (rangeInput_value page_out_of_range) = true) by reflexivity.
  assert (Hn : PRICING_DATA !! rangeInput_value page_out_of_range = None)
    by (vm_compute; reflexivity).
  split; [exact Hv |]. split; [exact Hn |].
  exact (X4_click_out_of_range_keeps_surfaces page_out_of_range Hv Hn).
Defined.

(** X5: a slider move to a value that keys an entry and a click on the
    toggle commute: in either order they complete and end in the same
    state, whatever the slider held before. *)
Theorem X5_move_and_click_commute (st : State) (v : string) (info : PricingInfo) :
  PRICING_DATA !! v = Some info →
  ∃ st', run st [InputEvent v; ClickEvent] = Normal st'
         ∧ run st [ClickEvent; InputEvent v] = Normal st'.
Proof.
  intros Hi.
  destruct (handleRangeChange_entry st v info Hi) as (s1 & H1 & Hr1 & Hb1 & Hc1 & _).
  destruct (updatePricing_normal (flipped st)) as (s2 & H2 & Hr2 & Hb2 & Hc2).
  destruct (updatePricing_normal (flipped s1)) as (st' & H' & _).
  exists st'. split.
  - rewrite (run_step st s1) by exact H1.
    cbn [run dispatch]. rewrite handleDiscountToggle_flipped, H'. reflexivity.
  - rewrite (run_step st s2) by exact H2.
    cbn [run dispatch handleRangeChange].
    rewrite <- (updatePricing_ext (flipped s1)), H'; [reflexivity | | | |].
    + simpl. by destruct (flipped_fields s1) as (-> & _).
    + simpl. rewrite Hb2.
      destruct (flipped_fields s1) as (_ & -> & _).
      destruct (flipped_fields st) as (_ & -> & _). by rewrite Hb1.
    + simpl. by rewrite Hc2, !flipped_classes, Hb1, Hc1.
    + destruct (flipped_fields s1) as (-> & _). rewrite Hr1.
      by rewrite (PRICING_DATA_get_own v info Hi).
Qed.

Lemma X5_move_and_click_commute_witness :
  PRICING_DATA !! "4" = Some {| views := "500K"; price := 24 |}
  ∧ ∃ st', run page_out_of_range [InputEvent "4"; ClickEvent] = Normal st'
           ∧ run page_out_of_range [ClickEvent; InputEvent "4"] = Normal st'.
Proof.
  assert (Hi : PRICING_DATA !! "4" = Some {| views := "500K"; price := 24 |})
    by (vm_compute; reflexivity).
  split; [exact Hi |].
  exact (X5_move_and_click_commute page_out_of_range "4" _ Hi).
Defined.

(** X6: a slider move to a value that keys an entry overrides whatever
    slider move came just before it: the pair ends in the same state as the
    later move alone. *)
Theorem X6_later_move_overrides (st : State) (v w : string) (info : PricingInfo) :
  PRICING_DATA !! w = Some info →
  ∃ st', run st [InputEvent v; InputEvent w] = Normal st'
         ∧ run st [InputEvent w] = Normal st'.
Proof.
  intros Hi.
  destruct (updatePricing_normal (set_rangeInput_value st v))
    as (s1 & H1 & _ & Hb1 & Hc1).
  destruct (handleRangeChange_entry st w info Hi) as (st' & H' & _).
  exists st'. split; [| by rewrite (run_step st st')].
  assert (H2 : dispatch s1 (InputEvent w) = Normal st').
  { rewrite <- H'. unfold dispatch, handleRangeChange.
    apply updatePricing_ext; simpl; try done.
    by rewrite (PRICING_DATA_get_own w info Hi). }
  by rewrite (run_step st s1), (run_step s1 st').
Qed.

Lemma X6_later_move_overrides_witness :
  PRICING_DATA !! "2" = Some {| views := "50K"; price := 12 |}
  ∧ ∃ st', run page_tier3 [InputEvent "0"; InputEvent "2"] = Normal st'
           ∧ run page_tier3 [InputEvent "2"] = Normal st'.
Proof.
  assert (Hi : PRICING_DATA !! "2" = Some {| views := "50K"; price := 12 |})
    by (vm_compute; reflexivity).
  split; [exact Hi |].
  exact (X6_later_move_overrides page_tier3 "0" "2" _ Hi).
Defined.

(** X7: from a state whose surfaces show the current state and whose button
    class agrees with the flag, two clicks in succession restore the whole
    state: slider value, both surfaces, the button's classes and the flag. *)
Theorem X7_double_click_restores_state (st : State) :
  marker_agrees st →
  displays_current st →
  run st [ClickEvent; ClickEvent] = Normal st.
Proof.
  intros Hm Hshown.
  destruct (updatePricing_normal (flipped st)) as (s1 & H1 & Hr1 & Hb1 & Hc1).
  destruct (flipped_fields st) as (Hfr & Hfb & Hfv & Hfp).
  destruct (flipped_fields s1) as (Hfr1 & Hfb1 & Hfv1 & Hfp1).
  rewrite (run_step st s1) by exact H1.
  cbn [run dispatch]. rewrite handleDiscountToggle_flipped.
  assert (Hr : rangeInput_value (flipped s1) = rangeInput_value st) by congruence.
  assert (Hb : isYearlyBilling (flipped s1) = isYearlyBilling st).
  { rewrite Hfb1, Hb1, Hfb. apply negb_involutive. }
  assert (Hc : discountBtn_classList (flipped s1) = discountBtn_classList st).
  { rewrite flipped_classes, Hb1, Hc1, flipped_classes, Hfb.
    unfold marker_agrees, marker_active in Hm.
    destruct (isYearlyBilling st); simpl.
    - apply classList_add_remove. by apply Hm.
    - apply classList_remove_add. intros Hin. by apply Hm in Hin. }
  destruct (PRICING_DATA_get (rangeInput_value st)) as [| info |] eqn:E.
  - assert (Hs1 : s1 = flipped st).
    { rewrite updatePricing_undefined in H1 by (by rewrite Hfr). by injection H1. }
    rewrite updatePricing_undefined by (by rewrite Hr).
    cbn. f_equal. subst s1. apply State_eq; congruence.
  - rewrite (updatePricing_ext (flipped s1) st), Hshown; try done.
    by rewrite Hr, E.
  - rewrite (updatePricing_ext (flipped s1) st), Hshown; try done.
    by rewrite Hr, E.
Qed.

Lemma X7_double_click_restores_state_witness :
  marker_agrees page_tier4_yearly
  ∧ displays_current page_tier4_yearly
  ∧ run page_tier4_yearly [ClickEvent; ClickEvent] = Normal page_tier4_yearly.
Proof.
  assert (Hm : marker_agrees page_tier4_yearly).
  { split; [reflexivity | intros _; apply classList_add_has]. }
  assert (Hs : displays_current page_tier4_yearly) by (vm_compute; reflexivity).
  split; [exact Hm |]. split; [exact Hs |].
  exact (X7_double_click_restores_state page_tier4_yearly Hm Hs).
Defined.
